(** * ElectronIframeWebview: find session and shortcut suppression

    A shallow embedding of
    [src/vs/workbench/contrib/webview/electron-sandbox/iframeWebviewElement.ts].

    The class keeps one mutable flag ([_findStarted]) and talks to the outside
    through two channels: calls on the main-process services (fire and forget)
    and the [_hasFindResult] emitter.  Methods are written in a state monad
    over a [World]: the object's fields together with the chronological log of
    everything the object has sent out. *)

From Stdlib Require Import String ZArith List Bool Lia.
From ExtLib Require Import Structures.Monad Structures.MonadState.
From ExtLib Require Import Data.Monads.StateMonad.
Import ListNotations.
Import MonadNotation.
Local Open Scope monad_scope.
Local Open Scope string_scope.
Local Open Scope list_scope.

Set Implicit Arguments.

(* ------------------------------------------------------------------ *)
(** ** Values crossing the process boundary *)

(** The first argument of every host call, [{ windowId: ... }]. *)
Record WebviewWindowId : Type := { windowId : Z }.

(** Modelled from the spec: the options type of [findInFrame] is declared in
    [vs/platform/webview/common/webviewManagerService], which is not part of
    the file.  The spec speaks of an "options set" that can be empty and can
    signal a direction; the fields are the ones the commented-out code of
    [startFind] and [find] names.  An absent field of the object literal is
    [None]. *)
Record FindInFrameOptions : Type :=
  { forward : option bool;
    findNext : option bool;
    matchCase : option bool }.

(** The literal [{}] passed by [startFind] and [find]. *)
Definition emptyOptions : FindInFrameOptions :=
  {| forward := None; findNext := None; matchCase := None |}.

(** The literal [{ keepSelection }] of [stopFind]; the parameter is optional,
    so the field may hold [undefined]. *)
Record StopFindOptions : Type := { keepSelection : option bool }.

(** Calls on services of the main process. *)
Inductive HostCall : Type :=
| findInFrame (w : WebviewWindowId) (frameName text : string)
              (options : FindInFrameOptions)
| stopFindInFrame (w : WebviewWindowId) (frameName : string)
                  (options : StopFindOptions)
| setIgnoreMenuShortcuts (w : WebviewWindowId) (enabled : bool).

(** Everything an observer outside the object can see. *)
Inductive Effect : Type :=
| HostDispatch (c : HostCall)
| FireHasFindResult (b : bool).

(** [!value] on a string: only the empty string is falsy. *)
Definition falsy (value : string) : bool :=
  match value with
  | EmptyString => true
  | String _ _ => false
  end.

(* ------------------------------------------------------------------ *)
(** ** The keyboard handler *)

Module WindowIgnoreMenuShortcutsManager.

(** Modelled from the spec: the class [WindowIgnoreMenuShortcutsManager]
    lives in [electron-sandbox/windowIgnoreMenuShortcutsManager], which is
    not part of the file; only its construction and the calls of [didFocus]
    and [didBlur] are.  The spec describes a machine with two states, one
    host call per transition and none for an event that does not change the
    state. *)
Inductive t : Type := Unsuppressed | Suppressed.

(** Modelled from the spec: the manager starts out not suppressing. *)
Definition create : t := Unsuppressed.

(** Modelled from the spec: "gained focus" moves Unsuppressed to Suppressed
    and registers the window; in Suppressed it does nothing. *)
Definition didFocus (wid : Z) (s : t) : t * list HostCall :=
  match s with
  | Unsuppressed => (Suppressed, [setIgnoreMenuShortcuts {| windowId := wid |} true])
  | Suppressed => (Suppressed, [])
  end.

(** Modelled from the spec: "lost focus" moves Suppressed to Unsuppressed
    and unregisters the window; in Unsuppressed it does nothing. *)
Definition didBlur (wid : Z) (s : t) : t * list HostCall :=
  match s with
  | Suppressed => (Unsuppressed, [setIgnoreMenuShortcuts {| windowId := wid |} false])
  | Unsuppressed => (Unsuppressed, [])
  end.

End WindowIgnoreMenuShortcutsManager.

(* ------------------------------------------------------------------ *)
(** ** The object *)

(** The part of [WebviewOptions] the constructor reads. *)
Record WebviewOptions : Type := { enableFindWidget : bool }.

(** Fields of an [ElectronIframeWebview].  [element] and [_webviewFindWidget]
    are [T | undefined] in the source and only ever tested for definedness
    here, so they are kept as flags; [foundInPageListener] records whether the
    constructor attached the ['found-in-page'] listener. *)
Record ElectronIframeWebview : Type :=
  { id : string;
    nativeHostService_windowId : Z;
    element : bool;
    _webviewKeyboardHandler : WindowIgnoreMenuShortcutsManager.t;
    _webviewFindWidget : bool;
    foundInPageListener : bool;
    _findStarted : bool }.

Definition with_findStarted (b : bool) (o : ElectronIframeWebview) :=
  {| id := id o;
     nativeHostService_windowId := nativeHostService_windowId o;
     element := element o;
     _webviewKeyboardHandler := _webviewKeyboardHandler o;
     _webviewFindWidget := _webviewFindWidget o;
     foundInPageListener := foundInPageListener o;
     _findStarted := b |}.

Definition with_keyboardHandler (k : WindowIgnoreMenuShortcutsManager.t)
           (o : ElectronIframeWebview) :=
  {| id := id o;
     nativeHostService_windowId := nativeHostService_windowId o;
     element := element o;
     _webviewKeyboardHandler := k;
     _webviewFindWidget := _webviewFindWidget o;
     foundInPageListener := foundInPageListener o;
     _findStarted := _findStarted o |}.

(** The constructor (lines 43-88).  The base-class constructor has created the
    element by the time the body runs: line 82 dereferences it unguarded.
    [_findStarted] starts at [false] (line 39). *)
Definition constructor (id0 : string) (options : WebviewOptions) (wid : Z)
  : ElectronIframeWebview :=
  {| id := id0;
     nativeHostService_windowId := wid;
     element := true;
     _webviewKeyboardHandler := WindowIgnoreMenuShortcutsManager.create;
     _webviewFindWidget := enableFindWidget options;
     foundInPageListener := enableFindWidget options;
     _findStarted := false |}.

(* ------------------------------------------------------------------ *)
(** ** The monad of methods *)

Record World : Type :=
  { self : ElectronIframeWebview;
    emitted : list Effect }.

Definition M : Type -> Type := state World.

Definition this : M ElectronIframeWebview := gets self.

Definition update (f : ElectronIframeWebview -> ElectronIframeWebview) : M unit :=
  w <- get ;;
  put {| self := f (self w); emitted := emitted w |}.

Definition emit (es : list Effect) : M unit :=
  w <- get ;;
  put {| self := self w; emitted := emitted w ++ es |}.

Definition dispatch (c : HostCall) : M unit := emit [HostDispatch c].

Definition fire (b : bool) : M unit := emit [FireHasFindResult b].

Definition hostWindow (o : ElectronIframeWebview) : WebviewWindowId :=
  {| windowId := nativeHostService_windowId o |}.

(* ------------------------------------------------------------------ *)
(** ** Methods and listeners *)

(** Lines 127-144. *)
Definition startFind (value : string) : M unit :=
  o <- this ;;
  if falsy value || negb (element o) then ret tt
  else
    update (with_findStarted true) ;;
    dispatch (findInFrame (hostWindow o) (id o) value emptyOptions).

(** Lines 153-164.  [previous] is a parameter of the method; the body never
    reads it. *)
Definition find (value : string) (previous : bool) : M unit :=
  o <- this ;;
  if negb (element o) then ret tt
  else if negb (_findStarted o) then startFind value
  else dispatch (findInFrame (hostWindow o) (id o) value emptyOptions).

(** Lines 166-175. *)
Definition stopFind (keep : option bool) : M unit :=
  fire false ;;
  o <- this ;;
  if negb (element o) then ret tt
  else
    update (with_findStarted false) ;;
    dispatch (stopFindInFrame (hostWindow o) (id o) {| keepSelection := keep |}).

(** The listener of lines 82-84, applied to [e.result.matches]. *)
Definition foundInPageHandler (matches : Z) : M unit :=
  fire (0 <? matches)%Z.

(** A ['found-in-page'] event on the element: it reaches the handler when the
    constructor attached it (line 79). *)
Definition foundInPage (matches : Z) : M unit :=
  o <- this ;;
  if foundInPageListener o then foundInPageHandler matches else ret tt.

(** Lines 71-73. *)
Definition onDidFocus : M unit :=
  o <- this ;;
  let '(k, calls) :=
    WindowIgnoreMenuShortcutsManager.didFocus
      (nativeHostService_windowId o) (_webviewKeyboardHandler o) in
  update (with_keyboardHandler k) ;;
  emit (map HostDispatch calls).

(** Lines 75-77. *)
Definition onDidBlur : M unit :=
  o <- this ;;
  let '(k, calls) :=
    WindowIgnoreMenuShortcutsManager.didBlur
      (nativeHostService_windowId o) (_webviewKeyboardHandler o) in
  update (with_keyboardHandler k) ;;
  emit (map HostDispatch calls).

(* ------------------------------------------------------------------ *)
(** ** Histories *)

(** What can happen to the object from outside: a method call by the find
    widget, a DOM event on the element, or a message from the content. *)
Inductive Event : Type :=
| Call_startFind (value : string)
| Call_find (value : string) (previous : bool)
| Call_stopFind (keep : option bool)
| Dom_foundInPage (matches : Z)
| Msg_didFocus
| Msg_didBlur.

Definition step (e : Event) : M unit :=
  match e with
  | Call_startFind value => startFind value
  | Call_find value previous => find value previous
  | Call_stopFind keep => stopFind keep
  | Dom_foundInPage matches => foundInPage matches
  | Msg_didFocus => onDidFocus
  | Msg_didBlur => onDidBlur
  end.

Fixpoint run (es : list Event) : M unit :=
  match es with
  | [] => ret tt
  | e :: es' => step e ;; run es'
  end.

(** Running a computation on an object with an empty log. *)
Definition fresh (o : ElectronIframeWebview) : World :=
  {| self := o; emitted := [] |}.

Definition after (c : M unit) (o : ElectronIframeWebview) : ElectronIframeWebview :=
  self (execState c (fresh o)).

Definition effects (c : M unit) (o : ElectronIframeWebview) : list Effect :=
  emitted (execState c (fresh o)).

(** Projections of a log. *)
Definition fired (l : list Effect) : list bool :=
  flat_map (fun e => match e with FireHasFindResult b => [b] | _ => [] end) l.

Definition dispatched (l : list Effect) : list HostCall :=
  flat_map (fun e => match e with HostDispatch c => [c] | _ => [] end) l.

Definition isStop (c : HostCall) : bool :=
  match c with stopFindInFrame _ _ _ => true | _ => false end.

Definition stopDispatches (l : list Effect) : nat :=
  length (filter isStop (dispatched l)).

(* ------------------------------------------------------------------ *)
(** ** Vocabulary of the properties *)

(** A computation is framed when it appends to the log without reading it. *)
Definition framed (c : M unit) : Prop :=
  forall w : World,
    execState c w =
    {| self := after c (self w); emitted := emitted w ++ effects c (self w) |}.

(** What the spec asks of a continuation request: the options tell the host
    the direction, backward when [previous] holds. *)
Definition signalsDirection (previous : bool) (c : HostCall) : Prop :=
  match c with
  | findInFrame _ _ _ options => forward options = Some (negb previous)
  | _ => False
  end.

(** The history events that are calls of [stopFind]. *)
Definition isStopCall (e : Event) : bool :=
  match e with Call_stopFind _ => true | _ => false end.

Module Suppression.

Import WindowIgnoreMenuShortcutsManager.

Definition suppressed (s : t) : bool :=
  match s with Suppressed => true | Unsuppressed => false end.

(** The values of the shortcut toggles in a log, oldest first. *)
Definition toggles (l : list Effect) : list bool :=
  flat_map (fun e => match e with
                     | HostDispatch (setIgnoreMenuShortcuts _ enabled) => [enabled]
                     | _ => []
                     end) l.

(** A list of toggles that starts by leaving state [b] and never repeats
    itself. *)
Fixpoint alternatesFrom (b : bool) (l : list bool) : Prop :=
  match l with
  | [] => True
  | x :: l' => x = negb b /\ alternatesFrom x l'
  end.

End Suppression.

(* ------------------------------------------------------------------ *)
(** ** The rest of the class *)

(** Lines 107-109, the template [`${Schemas.vscodeWebview}://${this.id}`].
    [Schemas.vscodeWebview] is a constant of [vs/base/common/network], which
    is not part of the file; it is the first argument here. *)
Definition webviewContentEndpoint (vscodeWebview : string)
           (o : ElectronIframeWebview) : string :=
  (vscodeWebview ++ "://" ++ id o)%string.

(** The nodes [mountTo] handles: the find widget's DOM node, the iframe
    element, and whatever else the parent already holds. *)
Inductive Node : Type :=
| FindWidgetDomNode
| IframeElement
| OtherNode (n : nat).

Definition Node_eqb (a b : Node) : bool :=
  match a, b with
  | FindWidgetDomNode, FindWidgetDomNode => true
  | IframeElement, IframeElement => true
  | OtherNode n, OtherNode m => Nat.eqb n m
  | _, _ => false
  end.

(** [parent.appendChild(node)] on the list of the parent's children: the DOM
    puts the node last, and moves it there when it already is a child. *)
Definition appendChild (parent : list Node) (node : Node) : list Node :=
  filter (fun c => negb (Node_eqb c node)) parent ++ [node].

(** Lines 96-105; the result is the parent's list of children afterwards. *)
Definition mountTo (parent : list Node) (o : ElectronIframeWebview)
  : list Node :=
  if negb (element o) then parent
  else
    let parent1 :=
      if _webviewFindWidget o then appendChild parent FindWidgetDomNode
      else parent in
    appendChild parent1 IframeElement.

(** The children of a parent that [mountTo] leaves where they are. *)
Definition stays (widget : bool) (c : Node) : bool :=
  negb (Node_eqb c IframeElement)
  && (if widget then negb (Node_eqb c FindWidgetDomNode) else true).

(** The object literal [{ channel, args: data }] with the target origin it is
    posted to; [data] is an optional parameter of any type. *)
Record PostedMessage (A : Type) : Type :=
  { channel : string;
    args : option A;
    targetOrigin : string }.

(** Lines 111-113: what reaches [contentWindow.postMessage], if anything. *)
Definition doPostMessage (A : Type) (channel0 : string) (data : option A)
           (o : ElectronIframeWebview) : option (PostedMessage A) :=
  if element o
  then Some {| channel := channel0; args := data; targetOrigin := "*" |}
  else None.

(** Calls on the find widget; [Theme] is what
    [webviewThemeDataProvider.getTheme()] returns. *)
Inductive WidgetCall (Theme : Type) : Type :=
| widget_updateTheme (theme : Theme)
| widget_reveal
| widget_hide
| widget_find (previous : bool).

Arguments widget_reveal {Theme}.
Arguments widget_hide {Theme}.
Arguments widget_find {Theme} previous.

(** [this._webviewFindWidget?.m(...)]: the call is made when the widget is
    defined. *)
Definition onFindWidget (Theme : Type) (c : WidgetCall Theme)
           (o : ElectronIframeWebview) : list (WidgetCall Theme) :=
  if _webviewFindWidget o then [c] else [].

(** Lines 120-122, given the current theme. *)
Definition styledFindWidget (Theme : Type) (theme : Theme)
           (o : ElectronIframeWebview) : list (WidgetCall Theme) :=
  onFindWidget (widget_updateTheme theme) o.

(** Lines 177-179. *)
Definition showFind (Theme : Type) (o : ElectronIframeWebview)
  : list (WidgetCall Theme) :=
  onFindWidget widget_reveal o.

(** Lines 181-183. *)
Definition hideFind (Theme : Type) (o : ElectronIframeWebview)
  : list (WidgetCall Theme) :=
  onFindWidget widget_hide o.

(** Lines 185-187. *)
Definition runFindAction (Theme : Type) (previous : bool)
           (o : ElectronIframeWebview) : list (WidgetCall Theme) :=
  onFindWidget (widget_find previous) o.

(* ------------------------------------------------------------------ *)
(** ** Vocabulary of histories *)

Definition isFind (c : HostCall) : bool :=
  match c with findInFrame _ _ _ _ => true | _ => false end.

(** The history events that can start a session. *)
Definition isStartCall (e : Event) : bool :=
  match e with
  | Call_startFind _ | Call_find _ _ => true
  | _ => false
  end.

(** Every query passed to [startFind] or [find] in the history is non-empty. *)
Definition queriesNonEmpty (es : list Event) : bool :=
  forallb (fun e => match e with
                    | Call_startFind value | Call_find value _ => negb (falsy value)
                    | _ => true
                    end) es.

(** The find requests a history asks for, addressed as object [o] addresses
    them. *)
Definition findRequests (o : ElectronIframeWebview) (es : list Event)
  : list HostCall :=
  flat_map (fun e => match e with
                     | Call_startFind value | Call_find value _ =>
                         [findInFrame (hostWindow o) (id o) value emptyOptions]
                     | _ => []
                     end) es.

(** The stop requests a history asks for. *)
Definition stopRequests (o : ElectronIframeWebview) (es : list Event)
  : list HostCall :=
  flat_map (fun e => match e with
                     | Call_stopFind keep =>
                         [stopFindInFrame (hostWindow o) (id o)
                                          {| keepSelection := keep |}]
                     | _ => []
                     end) es.

(** The values a history puts on the result emitter of an object with or
    without the listener. *)
Definition resultSignal (listener : bool) (es : list Event) : list bool :=
  flat_map (fun e => match e with
                     | Call_stopFind _ => [false]
                     | Dom_foundInPage matches =>
                         if listener then [(0 <? matches)%Z] else []
                     | _ => []
                     end) es.

(** A host call is addressed to the window and frame of [o]; the shortcut
    toggles are the keyboard handler's own and are not looked at. *)
Definition addressedTo (o : ElectronIframeWebview) (c : HostCall) : Prop :=
  match c with
  | findInFrame w frameName _ _ => w = hostWindow o /\ frameName = id o
  | stopFindInFrame w frameName _ => w = hostWindow o /\ frameName = id o
  | setIgnoreMenuShortcuts _ _ => True
  end.

(* ------------------------------------------------------------------ *)
(** ** Sample objects *)

Definition sample (ready started : bool) : ElectronIframeWebview :=
  {| id := "webview-1";
     nativeHostService_windowId := 7;
     element := ready;
     _webviewKeyboardHandler := WindowIgnoreMenuShortcutsManager.Unsuppressed;
     _webviewFindWidget := true;
     foundInPageListener := true;
     _findStarted := started |}.

(* ------------------------------------------------------------------ *)
(** ** The scenarios of the specification run *)

Example startFind_sample :
  effects (startFind "foo") (sample true false)
  = [HostDispatch (findInFrame {| windowId := 7 |} "webview-1" "foo" emptyOptions)].
Proof. reflexivity. Qed.

Example scenario_sample :
  fired (effects (run [Call_startFind "foo"; Dom_foundInPage 3; Call_stopFind None])
                 (sample true false)) = [true; false]
  /\ _findStarted (after (run [Call_startFind "foo"; Dom_foundInPage 3; Call_stopFind None])
                         (sample true false)) = false.
Proof. split; reflexivity. Qed.

Example find_without_session_sample :
  runState (find "bar" true) (fresh (sample true false))
  = runState (startFind "bar") (fresh (sample true false)).
Proof. reflexivity. Qed.

(* ------------------------------------------------------------------ *)
(** ** Closed forms of the methods *)

(** Open the world and the object, then decide every test by cases. *)
Ltac open_world w :=
  let o := fresh "o" in
  destruct w as [o ?]; destruct o as [? ? [] [] ? [] []].

Lemma startFind_runs (value : string) (w : World) :
  runState (startFind value) w =
  (tt, if falsy value || negb (element (self w)) then w
       else {| self := with_findStarted true (self w);
               emitted := emitted w ++
                 [HostDispatch (findInFrame (hostWindow (self w)) (id (self w))
                                            value emptyOptions)] |}).
Proof. open_world w; destruct value; reflexivity. Qed.

Lemma find_runs (value : string) (previous : bool) (w : World) :
  runState (find value previous) w =
  (tt, if negb (element (self w)) then w
       else if negb (_findStarted (self w)) then execState (startFind value) w
       else {| self := self w;
               emitted := emitted w ++
                 [HostDispatch (findInFrame (hostWindow (self w)) (id (self w))
                                            value emptyOptions)] |}).
Proof. open_world w; destruct value; reflexivity. Qed.

Lemma stopFind_runs (keep : option bool) (w : World) :
  runState (stopFind keep) w =
  (tt, if negb (element (self w))
       then {| self := self w; emitted := emitted w ++ [FireHasFindResult false] |}
       else {| self := with_findStarted false (self w);
               emitted := (emitted w ++ [FireHasFindResult false]) ++
                 [HostDispatch (stopFindInFrame (hostWindow (self w)) (id (self w))
                                                {| keepSelection := keep |})] |}).
Proof. open_world w; reflexivity. Qed.

Lemma foundInPage_runs (matches : Z) (w : World) :
  runState (foundInPage matches) w =
  (tt, if foundInPageListener (self w)
       then {| self := self w;
               emitted := emitted w ++ [FireHasFindResult (0 <? matches)%Z] |}
       else w).
Proof. open_world w; reflexivity. Qed.

Lemma onDidFocus_runs (w : World) :
  runState onDidFocus w =
  (tt, let '(k, calls) :=
         WindowIgnoreMenuShortcutsManager.didFocus
           (nativeHostService_windowId (self w)) (_webviewKeyboardHandler (self w)) in
       {| self := with_keyboardHandler k (self w);
          emitted := emitted w ++ map HostDispatch calls |}).
Proof. open_world w; reflexivity. Qed.

Lemma onDidBlur_runs (w : World) :
  runState onDidBlur w =
  (tt, let '(k, calls) :=
         WindowIgnoreMenuShortcutsManager.didBlur
           (nativeHostService_windowId (self w)) (_webviewKeyboardHandler (self w)) in
       {| self := with_keyboardHandler k (self w);
          emitted := emitted w ++ map HostDispatch calls |}).
Proof. open_world w; reflexivity. Qed.

(* ------------------------------------------------------------------ *)
(** ** The log only grows *)

Lemma step_framed (e : Event) : framed (step e).
Proof.
  intros w. unfold after, effects, execState, fresh.
  destruct e; simpl step;
    rewrite ?startFind_runs, ?find_runs, ?stopFind_runs, ?foundInPage_runs,
            ?onDidFocus_runs, ?onDidBlur_runs;
    unfold execState; rewrite ?startFind_runs;
    open_world w; try destruct value; simpl; rewrite ?app_nil_r, <- ?app_assoc;
    reflexivity.
Qed.

Lemma seq_runs (c1 c2 : M unit) (w : World) :
  execState (c1 ;; c2) w = execState c2 (execState c1 w).
Proof.
  unfold execState. simpl. destruct (runState c1 w). reflexivity.
Qed.

Lemma seq_framed (c1 c2 : M unit) :
  framed c1 -> framed c2 -> framed (c1 ;; c2).
Proof.
  intros F1 F2 w. unfold after, effects.
  rewrite !seq_runs, (F1 w), (F1 (fresh (self w))), F2.
  rewrite (F2 {| self := _; emitted := [] ++ _ |}). simpl.
  rewrite app_assoc. reflexivity.
Qed.

Lemma run_framed (es : list Event) : framed (run es).
Proof.
  induction es as [|e es IH].
  - intros [o l]. unfold after, effects, execState. simpl.
    rewrite app_nil_r. reflexivity.
  - simpl run. apply seq_framed; [apply step_framed | exact IH].
Qed.

Lemma after_seq (c1 c2 : M unit) (o : ElectronIframeWebview) :
  framed c1 -> framed c2 -> after (c1 ;; c2) o = after c2 (after c1 o).
Proof.
  intros F1 F2. unfold after at 1.
  rewrite seq_runs, (F1 (fresh o)), F2. reflexivity.
Qed.

Lemma effects_seq (c1 c2 : M unit) (o : ElectronIframeWebview) :
  framed c1 -> framed c2 ->
  effects (c1 ;; c2) o = effects c1 o ++ effects c2 (after c1 o).
Proof.
  intros F1 F2. unfold effects at 1.
  rewrite seq_runs, (F1 (fresh o)), F2. reflexivity.
Qed.

Lemma after_run_cons (e : Event) (es : list Event) (o : ElectronIframeWebview) :
  after (run (e :: es)) o = after (run es) (after (step e) o).
Proof. apply after_seq; [apply step_framed | apply run_framed]. Qed.

Lemma effects_run_cons (e : Event) (es : list Event) (o : ElectronIframeWebview) :
  effects (run (e :: es)) o
  = effects (step e) o ++ effects (run es) (after (step e) o).
Proof. apply effects_seq; [apply step_framed | apply run_framed]. Qed.

Lemma after_run_app (es1 es2 : list Event) (o : ElectronIframeWebview) :
  after (run (es1 ++ es2)) o = after (run es2) (after (run es1) o).
Proof.
  revert o. induction es1 as [|e es1 IH]; intros o.
  - reflexivity.
  - rewrite <- app_comm_cons, !after_run_cons. apply IH.
Qed.

Lemma effects_run_app (es1 es2 : list Event) (o : ElectronIframeWebview) :
  effects (run (es1 ++ es2)) o
  = effects (run es1) o ++ effects (run es2) (after (run es1) o).
Proof.
  revert o. induction es1 as [|e es1 IH]; intros o.
  - reflexivity.
  - rewrite <- app_comm_cons, !effects_run_cons, after_run_cons, IH.
    apply app_assoc.
Qed.

(** Closed forms on an object with an empty log. *)
Lemma startFind_after (value : string) (o : ElectronIframeWebview) :
  after (startFind value) o
  = if falsy value || negb (element o) then o else with_findStarted true o.
Proof. destruct o as [? ? [] ? ? [] []]; destruct value; reflexivity. Qed.

Lemma startFind_effects (value : string) (o : ElectronIframeWebview) :
  effects (startFind value) o
  = if falsy value || negb (element o) then []
    else [HostDispatch (findInFrame (hostWindow o) (id o) value emptyOptions)].
Proof. destruct o as [? ? [] ? ? [] []]; destruct value; reflexivity. Qed.

Lemma find_after (value : string) (previous : bool) (o : ElectronIframeWebview) :
  after (find value previous) o
  = if negb (element o) then o
    else if negb (_findStarted o) then after (startFind value) o
    else o.
Proof. destruct o as [? ? [] ? ? [] []]; destruct value; reflexivity. Qed.

Lemma find_effects (value : string) (previous : bool) (o : ElectronIframeWebview) :
  effects (find value previous) o
  = if negb (element o) then []
    else if negb (_findStarted o) then effects (startFind value) o
    else [HostDispatch (findInFrame (hostWindow o) (id o) value emptyOptions)].
Proof. destruct o as [? ? [] ? ? [] []]; destruct value; reflexivity. Qed.

Lemma stopFind_after (keep : option bool) (o : ElectronIframeWebview) :
  after (stopFind keep) o
  = if element o then with_findStarted false o else o.
Proof. destruct o as [? ? [] ? ? [] []]; reflexivity. Qed.

Lemma stopFind_effects (keep : option bool) (o : ElectronIframeWebview) :
  effects (stopFind keep) o
  = FireHasFindResult false ::
    (if element o
     then [HostDispatch (stopFindInFrame (hostWindow o) (id o)
                                         {| keepSelection := keep |})]
     else []).
Proof. destruct o as [? ? [] ? ? [] []]; reflexivity. Qed.

Lemma foundInPage_after (matches : Z) (o : ElectronIframeWebview) :
  after (foundInPage matches) o = o.
Proof. destruct o as [? ? [] ? ? [] []]; reflexivity. Qed.

Lemma foundInPage_effects (matches : Z) (o : ElectronIframeWebview) :
  effects (foundInPage matches) o
  = if foundInPageListener o then [FireHasFindResult (0 <? matches)%Z] else [].
Proof. destruct o as [? ? [] ? ? [] []]; reflexivity. Qed.

Lemma stopFind_framed (keep : option bool) : framed (stopFind keep).
Proof. exact (step_framed (Call_stopFind keep)). Qed.

Lemma startFind_framed (value : string) : framed (startFind value).
Proof. exact (step_framed (Call_startFind value)). Qed.

Lemma find_framed (value : string) (previous : bool) :
  framed (find value previous).
Proof. exact (step_framed (Call_find value previous)). Qed.

Lemma foundInPage_framed (matches : Z) : framed (foundInPage matches).
Proof. exact (step_framed (Dom_foundInPage matches)). Qed.

Lemma falsy_empty (value : string) : falsy value = true <-> value = "".
Proof. destruct value; simpl; split; congruence. Qed.

Lemma falsy_nonempty (value : string) : value <> "" -> falsy value = false.
Proof. destruct value; simpl; congruence. Qed.

(* ------------------------------------------------------------------ *)
(** ** find and startFind *)

Lemma find_active_effects (value : string) (previous : bool)
      (o : ElectronIframeWebview) :
  element o = true -> _findStarted o = true ->
  effects (find value previous) o
  = [HostDispatch (findInFrame (hostWindow o) (id o) value emptyOptions)].
Proof. intros He Hs. rewrite find_effects, He, Hs. reflexivity. Qed.

Lemma find_ignores_previous (value : string) (w : World) :
  runState (find value true) w = runState (find value false) w.
Proof. rewrite !find_runs. reflexivity. Qed.

Lemma emptyOptions_no_direction (previous : bool) (w : WebviewWindowId)
      (frameName text : string) :
  ~ signalsDirection previous (findInFrame w frameName text emptyOptions).
Proof. simpl. discriminate. Qed.

(** C1 (the code departs from the claim).  On a ready webview with an active
    session, [find "foo" true] sends one [findInFrame] whose options are the
    empty literal: nothing in the call signals a direction, and the call is the
    very one that [find "foo" false] sends and that [startFind "foo"] sends for
    a fresh search. *)
Theorem find_active_drops_previous :
  effects (find "foo" true) (sample true true)
  = [HostDispatch (findInFrame {| windowId := 7 |} "webview-1" "foo" emptyOptions)]
  /\ ~ signalsDirection true
       (findInFrame {| windowId := 7 |} "webview-1" "foo" emptyOptions)
  /\ effects (find "foo" true) (sample true true)
     = effects (find "foo" false) (sample true true)
  /\ effects (find "foo" true) (sample true true)
     = effects (startFind "foo") (sample true false).
Proof.
  split; [reflexivity|]. split; [apply emptyOptions_no_direction|].
  split; reflexivity.
Qed.

Lemma startFind_empty_noop (w : World) : runState (startFind "") w = (tt, w).
Proof. rewrite startFind_runs. reflexivity. Qed.

Lemma find_empty_noop (previous : bool) (w : World) :
  element (self w) && _findStarted (self w) = false ->
  runState (find "" previous) w = (tt, w).
Proof.
  intros H. rewrite find_runs. unfold execState. rewrite startFind_empty_noop.
  destruct (element (self w)), (_findStarted (self w));
    simpl in *; congruence.
Qed.

(** C2 (the code departs from the claim).  On a ready webview with an active
    session, [find] with the empty string still sends [findInFrame] to the
    host, with the empty string as the text to search.  The session state is
    left as it was. *)
Theorem find_empty_active_dispatches :
  effects (find "" false) (sample true true)
  = [HostDispatch (findInFrame {| windowId := 7 |} "webview-1" "" emptyOptions)]
  /\ after (find "" false) (sample true true) = sample true true.
Proof. split; reflexivity. Qed.

(* ------------------------------------------------------------------ *)
(** ** stopFind *)

(** C3, counterexample: on a webview whose element is gone while a session is
    marked started, [stopFind] returns with the flag still set. *)
Lemma stopFind_unready_stays_started :
  _findStarted (after (stopFind None) (sample false true)) = true.
Proof. reflexivity. Qed.

(** C3, amended: after [stopFind] the started flag is [false] whenever the
    element exists, and is what it was otherwise; a second [stopFind] leaves
    the object as the first one left it. *)
Theorem stopFind_started_after (keep keep' : option bool)
        (o : ElectronIframeWebview) :
  _findStarted (after (stopFind keep) o)
  = (if element o then false else _findStarted o)
  /\ after (stopFind keep') (after (stopFind keep) o) = after (stopFind keep) o.
Proof.
  rewrite !stopFind_after.
  destruct o as [? ? [] ? ? ? ?]; split; reflexivity.
Qed.

(** C4, counterexample: with the element present and no session started,
    [stopFind] sends a stop request all the same, and two calls in a row send
    two. *)
Lemma stopFind_idle_still_dispatches :
  stopDispatches (effects (stopFind None) (sample true false)) = 1
  /\ stopDispatches
       (effects (run [Call_stopFind None; Call_stopFind None]) (sample true true))
     = 2.
Proof. split; reflexivity. Qed.

(** C4, amended: [stopFind] sends a stop request exactly when the element
    exists, whatever the started flag; two calls in a row send two requests on
    a ready webview and none otherwise, and the second call leaves the object
    as the first one left it. *)
Theorem stopFind_dispatch_iff_ready (keep keep' : option bool)
        (o : ElectronIframeWebview) :
  dispatched (effects (stopFind keep) o)
  = (if element o
     then [stopFindInFrame (hostWindow o) (id o) {| keepSelection := keep |}]
     else [])
  /\ stopDispatches (effects (stopFind keep ;; stopFind keep') o)
     = (if element o then 2 else 0)
  /\ after (stopFind keep ;; stopFind keep') o = after (stopFind keep) o.
Proof.
  rewrite effects_seq, after_seq by apply stopFind_framed.
  rewrite !stopFind_effects, !stopFind_after.
  destruct o as [? ? [] ? ? ? ?]; repeat split; reflexivity.
Qed.

(** C5: whatever the object and the log so far, the first thing [stopFind]
    adds to the log is the firing of [false] on the result emitter; nothing
    else it adds is a firing. *)
Theorem stopFind_fires_false_first (keep : option bool) (w : World) :
  exists rest : list Effect,
    emitted (execState (stopFind keep) w)
    = emitted w ++ FireHasFindResult false :: rest
    /\ fired rest = [].
Proof.
  rewrite stopFind_framed, stopFind_effects. simpl.
  eexists. split; [reflexivity|].
  destruct (element (self w)); reflexivity.
Qed.

(* ------------------------------------------------------------------ *)
(** ** find without a session *)

(** C6: with no session started, [find] with a non-empty query does what
    [startFind] does, whatever [previous] is; on a ready webview that is one
    [findInFrame] with the query and the empty options, and the started flag
    set. *)
Theorem find_idle_is_startFind (value : string) (w : World) :
  value <> "" ->
  _findStarted (self w) = false ->
  (forall previous : bool,
      runState (find value previous) w = runState (startFind value) w)
  /\ (element (self w) = true ->
      emitted (execState (find value false) w)
      = emitted w ++
        [HostDispatch (findInFrame (hostWindow (self w)) (id (self w))
                                   value emptyOptions)]
      /\ _findStarted (self (execState (find value false) w)) = true).
Proof.
  intros Hne Hidle. split.
  - intros previous. rewrite find_runs, Hidle. unfold execState.
    rewrite startFind_runs. simpl.
    destruct (element (self w)); simpl; [reflexivity|].
    rewrite orb_true_r. reflexivity.
  - intros Hready. unfold execState.
    rewrite find_runs, Hready, Hidle. simpl. unfold execState.
    rewrite startFind_runs, Hready, (falsy_nonempty Hne). simpl.
    split; reflexivity.
Qed.

Lemma find_idle_is_startFind_witness :
  "bar" <> ""
  /\ _findStarted (self (fresh (sample true false))) = false
  /\ runState (find "bar" false) (fresh (sample true false))
     = runState (startFind "bar") (fresh (sample true false))
  /\ emitted (execState (find "bar" false) (fresh (sample true false)))
     = [HostDispatch (findInFrame {| windowId := 7 |} "webview-1" "bar" emptyOptions)]
  /\ _findStarted (self (execState (find "bar" false) (fresh (sample true false))))
     = true.
Proof.
  assert (Hne : "bar" <> "") by discriminate.
  split; [exact Hne|]. split; [reflexivity|].
  destruct (@find_idle_is_startFind "bar" (fresh (sample true false)) Hne eq_refl)
    as [Hsame Hready].
  split; [apply Hsame|]. apply Hready. reflexivity.
Defined.

(* ------------------------------------------------------------------ *)
(** ** Result events *)

Lemma fired_app (l1 l2 : list Effect) : fired (l1 ++ l2) = fired l1 ++ fired l2.
Proof. unfold fired. apply flat_map_app. Qed.

Section Listening.

(** A webview whose constructor attached the result listener. *)
Variable o : ElectronIframeWebview.
Hypothesis listening : foundInPageListener o = true.

Lemma foundInPage_stream (ns : list Z) :
  effects (run (map Dom_foundInPage ns)) o
  = map (fun n => FireHasFindResult (0 <? n)%Z) ns
  /\ after (run (map Dom_foundInPage ns)) o = o.
Proof.
  induction ns as [|n ns [IHe IHa]].
  - split; reflexivity.
  - simpl map. rewrite effects_run_cons, after_run_cons. simpl step.
    rewrite foundInPage_after, foundInPage_effects, listening, IHe, IHa.
    split; reflexivity.
Qed.

(** C7: with the listener attached, a result event carrying [n] matches fires
    the emitter once with [0 < n] and leaves the object as it was, so a
    stream of events fires the stream of their tests, each on its own; counts
    0, 5, 0 fire false, true, false. *)
Theorem foundInPage_republishes (ns : list Z) :
  (forall n : Z,
      effects (foundInPage n) o = [FireHasFindResult (0 <? n)%Z]
      /\ after (foundInPage n) o = o
      /\ ((0 <? n)%Z = true <-> (n > 0)%Z))
  /\ effects (run (map Dom_foundInPage ns)) o
     = map (fun n => FireHasFindResult (0 <? n)%Z) ns
  /\ after (run (map Dom_foundInPage ns)) o = o
  /\ effects (run [Dom_foundInPage 0; Dom_foundInPage 5; Dom_foundInPage 0]) o
     = [FireHasFindResult false; FireHasFindResult true; FireHasFindResult false].
Proof.
  split; [|split; [|split]].
  - intros n. rewrite foundInPage_effects, foundInPage_after, listening.
    repeat split; try (rewrite Z.ltb_lt; lia).
  - apply foundInPage_stream.
  - apply foundInPage_stream.
  - exact (proj1 (foundInPage_stream [0; 5; 0]%Z)).
Qed.

(** C10: with the listener attached, a result event with a positive count
    that arrives after [stopFind] fires [true]: the log of the two is that of
    [stopFind] followed by the firing of [true], although the started flag is
    down on a ready webview; the handler does not look at the flag. *)
Theorem result_after_stop_fires_true (keep : option bool) (n : Z) :
  (0 < n)%Z ->
  effects (stopFind keep ;; foundInPage n) o
  = effects (stopFind keep) o ++ [FireHasFindResult true]
  /\ fired (effects (stopFind keep ;; foundInPage n) o) = [false; true]
  /\ _findStarted (after (stopFind keep) o)
     = (if element o then false else _findStarted o)
  /\ (forall started : bool,
         effects (foundInPage n) (with_findStarted started o)
         = [FireHasFindResult true]).
Proof.
  intros Hn.
  assert (Hpos : (0 <? n)%Z = true) by (apply Z.ltb_lt; exact Hn).
  rewrite effects_seq by (apply stopFind_framed || apply foundInPage_framed).
  rewrite foundInPage_effects, stopFind_after, stopFind_effects, Hpos.
  assert (Hl : foundInPageListener
                 (if element o then with_findStarted false o else o) = true)
    by (destruct (element o); exact listening).
  rewrite Hl.
  split; [reflexivity|].
  split; [destruct (element o); reflexivity|].
  split; [destruct (element o); reflexivity|].
  intros started. rewrite foundInPage_effects. simpl.
  rewrite listening, Hpos. reflexivity.
Qed.

End Listening.

Lemma foundInPage_republishes_witness :
  foundInPageListener (sample true true) = true
  /\ effects (run (map Dom_foundInPage [0; 5]%Z)) (sample true true)
     = [FireHasFindResult false; FireHasFindResult true]
  /\ effects (run (map Dom_foundInPage [5; 0]%Z)) (sample true true)
     = [FireHasFindResult true; FireHasFindResult false].
Proof.
  split; [reflexivity|]. split.
  - exact (proj1 (proj2 (@foundInPage_republishes (sample true true) eq_refl [0; 5]%Z))).
  - exact (proj1 (proj2 (@foundInPage_republishes (sample true true) eq_refl [5; 0]%Z))).
Defined.

Lemma result_after_stop_fires_true_witness :
  foundInPageListener (sample true true) = true
  /\ (0 < 4)%Z
  /\ fired (effects (stopFind None ;; foundInPage 4) (sample true true))
     = [false; true]
  /\ _findStarted (after (stopFind None) (sample true true)) = false.
Proof.
  split; [reflexivity|]. split; [reflexivity|].
  destruct (@result_after_stop_fires_true (sample true true) eq_refl None 4%Z eq_refl)
    as (_ & Hfired & Hflag & _).
  split; [exact Hfired | exact Hflag].
Defined.

(* ------------------------------------------------------------------ *)
(** ** Shortcut suppression *)

Lemma toggles_app (l1 l2 : list Effect) :
  Suppression.toggles (l1 ++ l2) = Suppression.toggles l1 ++ Suppression.toggles l2.
Proof. unfold Suppression.toggles. apply flat_map_app. Qed.

(** One event: either the handler state stays and nothing is toggled, or the
    state flips and the one toggle says so. *)
Lemma step_toggles (e : Event) (o : ElectronIframeWebview) :
  let b := Suppression.suppressed (_webviewKeyboardHandler o) in
  let b' := Suppression.suppressed (_webviewKeyboardHandler (after (step e) o)) in
  (Suppression.toggles (effects (step e) o) = [] /\ b' = b)
  \/ (Suppression.toggles (effects (step e) o) = [b'] /\ b' = negb b).
Proof.
  destruct e; simpl step;
    destruct o as [? ? [] [] ? [] []]; try destruct value;
    (left; split; reflexivity) || (right; split; reflexivity).
Qed.

Lemma run_alternates (es : list Event) (o : ElectronIframeWebview) :
  Suppression.alternatesFrom (Suppression.suppressed (_webviewKeyboardHandler o))
                 (Suppression.toggles (effects (run es) o)).
Proof.
  revert o. induction es as [|e es IH]; intros o.
  - exact I.
  - rewrite effects_run_cons, toggles_app.
    specialize (IH (after (step e) o)).
    destruct (step_toggles e o) as [[Ht Hb] | [Ht Hb]]; rewrite Ht.
    + rewrite <- Hb. exact IH.
    + simpl. split; [exact Hb | exact IH].
Qed.

(** C8: over any history of the webview, the shortcut toggles sent to the
    host alternate, starting from the handler's state, so no event repeats a
    toggle already in force.  A second focus event right after a first adds
    nothing to what the first sent, a blur after them sends exactly one
    toggle to [false], and from a new webview the three events send one
    toggle to [true] and one to [false]. *)
Theorem focus_blur_no_redundant_calls (es : list Event) (id0 : string)
        (options : WebviewOptions) (wid : Z) (o : ElectronIframeWebview) :
  Suppression.alternatesFrom
    (Suppression.suppressed (_webviewKeyboardHandler o))
    (Suppression.toggles (effects (run es) o))
  /\ effects (run [Msg_didFocus; Msg_didFocus]) o = effects (run [Msg_didFocus]) o
  /\ effects (run [Msg_didFocus; Msg_didFocus; Msg_didBlur]) o
     = effects (run [Msg_didFocus]) o
       ++ [HostDispatch (setIgnoreMenuShortcuts (hostWindow o) false)]
  /\ effects (run [Msg_didFocus; Msg_didFocus; Msg_didBlur])
             (constructor id0 options wid)
     = [HostDispatch (setIgnoreMenuShortcuts {| windowId := wid |} true);
        HostDispatch (setIgnoreMenuShortcuts {| windowId := wid |} false)].
Proof.
  split; [apply run_alternates|].
  split; [|split].
  - destruct o as [? ? ? [] ? ? ?]; reflexivity.
  - destruct o as [? ? ? [] ? ? ?]; reflexivity.
  - reflexivity.
Qed.

(* ------------------------------------------------------------------ *)
(** ** The find widget option *)

Lemma step_keeps_listener (e : Event) (o : ElectronIframeWebview) :
  foundInPageListener (after (step e) o) = foundInPageListener o
  /\ element (after (step e) o) = element o.
Proof.
  destruct e; simpl step; destruct o as [? ? [] [] ? [] []];
    try destruct value; split; reflexivity.
Qed.

Lemma run_keeps_listener (es : list Event) (o : ElectronIframeWebview) :
  foundInPageListener (after (run es) o) = foundInPageListener o
  /\ element (after (run es) o) = element o.
Proof.
  revert o. induction es as [|e es IH]; intros o.
  - split; reflexivity.
  - rewrite after_run_cons.
    destruct (IH (after (step e) o)) as [Hl He].
    destruct (step_keeps_listener e o) as [Hl' He'].
    split; congruence.
Qed.

(** Without the listener a step fires only when it is a [stopFind], and then
    it fires [false]. *)
Lemma step_fired_unlistened (e : Event) (o : ElectronIframeWebview) :
  foundInPageListener o = false ->
  fired (effects (step e) o) = if isStopCall e then [false] else [].
Proof.
  intros Hl. destruct e; simpl step; simpl isStopCall;
    destruct o as [? ? [] [] ? ? []]; simpl in Hl; subst;
    try destruct value; reflexivity.
Qed.

Lemma run_fired_unlistened (es : list Event) (o : ElectronIframeWebview) :
  foundInPageListener o = false ->
  fired (effects (run es) o) = map (fun _ => false) (filter isStopCall es).
Proof.
  revert o. induction es as [|e es IH]; intros o Hl.
  - reflexivity.
  - rewrite effects_run_cons, fired_app, (@step_fired_unlistened e o Hl).
    rewrite IH by (rewrite (proj1 (step_keeps_listener e o)); exact Hl).
    simpl filter. destruct (isStopCall e); reflexivity.
Qed.

(** C9: on a webview built by the constructor, after any history a result
    event fires the emitter exactly when [enableFindWidget] was set.  When it
    was not, every firing in a history is the [false] of a [stopFind] call,
    one for one; [startFind] and [find] with a non-empty query and [stopFind]
    still send their host calls. *)
Theorem result_events_need_find_widget (id0 : string) (options : WebviewOptions)
        (wid : Z) (es : list Event) (n : Z) (value : string)
        (previous : bool) (keep : option bool) :
  let o := constructor id0 options wid in
  value <> "" ->
  effects (foundInPage n) (after (run es) o)
  = (if enableFindWidget options then [FireHasFindResult (0 <? n)%Z] else [])
  /\ (enableFindWidget options = false ->
      fired (effects (run es) o) = map (fun _ => false) (filter isStopCall es))
  /\ effects (run [Call_startFind value; Call_find value previous]) o
     = [HostDispatch (findInFrame {| windowId := wid |} id0 value emptyOptions);
        HostDispatch (findInFrame {| windowId := wid |} id0 value emptyOptions)]
  /\ effects (stopFind keep) o
     = [FireHasFindResult false;
        HostDispatch (stopFindInFrame {| windowId := wid |} id0
                                      {| keepSelection := keep |})].
Proof.
  intros o Hne. split; [|split; [|split]].
  - rewrite foundInPage_effects, (proj1 (run_keeps_listener es o)). reflexivity.
  - intros Hoff. apply run_fired_unlistened. exact Hoff.
  - destruct value as [|c value]; [congruence|]. reflexivity.
  - reflexivity.
Qed.

Lemma result_events_need_find_widget_witness :
  "foo" <> ""
  /\ effects (foundInPage 3)
             (after (run [Call_startFind "foo"])
                    (constructor "webview-1" {| enableFindWidget := false |} 7))
     = []
  /\ fired (effects (run [Call_startFind "foo"; Dom_foundInPage 3; Call_stopFind None])
                    (constructor "webview-1" {| enableFindWidget := false |} 7))
     = [false].
Proof.
  assert (Hne : "foo" <> "") by discriminate.
  split; [exact Hne|].
  split.
  - exact (proj1 (@result_events_need_find_widget
                    "webview-1" {| enableFindWidget := false |} 7%Z
                    [Call_startFind "foo"] 3%Z "foo" false None Hne)).
  - exact (proj1 (proj2 (@result_events_need_find_widget
                    "webview-1" {| enableFindWidget := false |} 7%Z
                    [Call_startFind "foo"; Dom_foundInPage 3; Call_stopFind None]
                    3%Z "foo" false None Hne)) eq_refl).
Defined.

(* ------------------------------------------------------------------ *)
(** ** What a history keeps and what it sends *)

(** Decide a statement about one step by cases on the event, the flags of the
    object and the emptiness of the query. *)
Ltac step_cases e o :=
  destruct e as [value | value ? | ? | ? | | ]; simpl step;
  destruct o as [? ? [] [] ? [] []];
  try destruct value.

Lemma step_keeps_identity (e : Event) (o : ElectronIframeWebview) :
  id (after (step e) o) = id o
  /\ nativeHostService_windowId (after (step e) o) = nativeHostService_windowId o
  /\ element (after (step e) o) = element o
  /\ _webviewFindWidget (after (step e) o) = _webviewFindWidget o
  /\ foundInPageListener (after (step e) o) = foundInPageListener o.
Proof. step_cases e o; repeat split; reflexivity. Qed.

Lemma run_keeps_identity (es : list Event) (o : ElectronIframeWebview) :
  id (after (run es) o) = id o
  /\ nativeHostService_windowId (after (run es) o) = nativeHostService_windowId o
  /\ element (after (run es) o) = element o
  /\ _webviewFindWidget (after (run es) o) = _webviewFindWidget o
  /\ foundInPageListener (after (run es) o) = foundInPageListener o.
Proof.
  revert o. induction es as [|e es IH]; intros o.
  - repeat split; reflexivity.
  - rewrite after_run_cons.
    destruct (IH (after (step e) o)) as (I1 & I2 & I3 & I4 & I5).
    destruct (step_keeps_identity e o) as (S1 & S2 & S3 & S4 & S5).
    repeat split; congruence.
Qed.

Lemma hostWindow_ext (o1 o2 : ElectronIframeWebview) :
  nativeHostService_windowId o1 = nativeHostService_windowId o2 ->
  hostWindow o1 = hostWindow o2.
Proof. unfold hostWindow. intros ->. reflexivity. Qed.

Lemma findRequests_step (e : Event) (es : list Event) (o : ElectronIframeWebview) :
  findRequests (after (step e) o) es = findRequests o es.
Proof.
  destruct (step_keeps_identity e o) as (Hid & Hw & _).
  unfold findRequests. rewrite Hid, (hostWindow_ext _ _ Hw). reflexivity.
Qed.

Lemma stopRequests_step (e : Event) (es : list Event) (o : ElectronIframeWebview) :
  stopRequests (after (step e) o) es = stopRequests o es.
Proof.
  destruct (step_keeps_identity e o) as (Hid & Hw & _).
  unfold stopRequests. rewrite Hid, (hostWindow_ext _ _ Hw). reflexivity.
Qed.

Lemma dispatched_app (l1 l2 : list Effect) :
  dispatched (l1 ++ l2) = dispatched l1 ++ dispatched l2.
Proof. unfold dispatched. apply flat_map_app. Qed.

Lemma step_fired (e : Event) (o : ElectronIframeWebview) :
  fired (effects (step e) o) = resultSignal (foundInPageListener o) [e].
Proof. step_cases e o; reflexivity. Qed.

Lemma step_stops (e : Event) (o : ElectronIframeWebview) :
  filter isStop (dispatched (effects (step e) o))
  = if element o then stopRequests o [e] else [].
Proof. step_cases e o; reflexivity. Qed.

Lemma step_finds (e : Event) (o : ElectronIframeWebview) :
  element o = true ->
  queriesNonEmpty [e] = true ->
  filter isFind (dispatched (effects (step e) o)) = findRequests o [e].
Proof.
  intros He Hq. step_cases e o; simpl in He, Hq; try discriminate; reflexivity.
Qed.

Lemma step_addressed (e : Event) (o : ElectronIframeWebview) :
  Forall (addressedTo o) (dispatched (effects (step e) o)).
Proof.
  step_cases e o; simpl; repeat constructor.
Qed.

Lemma addressedTo_step (e : Event) (o : ElectronIframeWebview) (c : HostCall) :
  addressedTo (after (step e) o) c -> addressedTo o c.
Proof.
  destruct (step_keeps_identity e o) as (Hid & Hw & _).
  destruct c; simpl; rewrite ?Hid, ?(hostWindow_ext _ _ Hw); trivial.
Qed.

(** X1: over any history the result emitter carries one [false] per [stopFind]
    call and, when the listener is attached, one test per result event, in
    the order of the history; [startFind], [find], focus and blur never fire
    it. *)
Theorem result_signal_of_history (es : list Event) (o : ElectronIframeWebview) :
  fired (effects (run es) o) = resultSignal (foundInPageListener o) es.
Proof.
  revert o. induction es as [|e es IH]; intros o.
  - reflexivity.
  - rewrite effects_run_cons, fired_app, step_fired, IH.
    rewrite (proj1 (step_keeps_listener e o)).
    unfold resultSignal. simpl. rewrite app_nil_r. reflexivity.
Qed.

(** X2: no history changes the id, the window id, the element or the find widget
    of the object, and every find or stop request it sends is addressed to
    that window and that id. *)
Theorem run_addressed (es : list Event) (o : ElectronIframeWebview) :
  (id (after (run es) o) = id o
   /\ nativeHostService_windowId (after (run es) o) = nativeHostService_windowId o
   /\ element (after (run es) o) = element o
   /\ _webviewFindWidget (after (run es) o) = _webviewFindWidget o)
  /\ Forall (addressedTo o) (dispatched (effects (run es) o)).
Proof.
  split.
  - destruct (run_keeps_identity es o) as (H1 & H2 & H3 & H4 & _).
    repeat split; assumption.
  - revert o. induction es as [|e es IH]; intros o.
    + constructor.
    + rewrite effects_run_cons, dispatched_app. apply Forall_app. split.
      * apply step_addressed.
      * eapply Forall_impl; [|apply IH]. apply addressedTo_step.
Qed.

Lemma filter_flat_nil (A : Type) (f : A -> bool) (l1 l2 : list A) :
  filter f l1 = [] -> filter f l2 = [] -> filter f (l1 ++ l2) = [].
Proof. intros H1 H2. rewrite filter_app, H1, H2. reflexivity. Qed.

Lemma step_not_ready (e : Event) (o : ElectronIframeWebview) :
  element o = false ->
  filter (fun c => isFind c || isStop c) (dispatched (effects (step e) o)) = []
  /\ _findStarted (after (step e) o) = _findStarted o.
Proof.
  intros He. step_cases e o; simpl in He; try discriminate;
    split; reflexivity.
Qed.

(** X3: with the element missing, no history sends a find or a stop request or
    touches the started flag, [mountTo] leaves the parent as it is, and
    [doPostMessage] posts nothing. *)
Theorem not_ready_drops_everything (A : Type) (es : list Event)
        (parent : list Node) (channel0 : string) (data : option A)
        (o : ElectronIframeWebview) :
  element o = false ->
  filter (fun c => isFind c || isStop c) (dispatched (effects (run es) o)) = []
  /\ _findStarted (after (run es) o) = _findStarted o
  /\ mountTo parent o = parent
  /\ doPostMessage channel0 data o = None.
Proof.
  intros He.
  assert (Hrun : filter (fun c => isFind c || isStop c)
                        (dispatched (effects (run es) o)) = []
                 /\ _findStarted (after (run es) o) = _findStarted o).
  { revert o He. induction es as [|e es IH]; intros o He.
    - split; reflexivity.
    - rewrite effects_run_cons, after_run_cons, dispatched_app.
      destruct (step_not_ready e o He) as [Hd Hs].
      destruct (IH (after (step e) o)) as [IHd IHs].
      + rewrite (proj2 (step_keeps_listener e o)). exact He.
      + split; [apply filter_flat_nil; assumption | congruence]. }
  destruct Hrun as [Hd Hs].
  unfold mountTo, doPostMessage. rewrite He.
  repeat split; assumption || reflexivity.
Qed.

Lemma not_ready_drops_everything_witness :
  element (sample false true) = false
  /\ dispatched
       (effects (run [Call_startFind "foo"; Call_find "foo" true; Call_stopFind None])
                (sample false true)) = []
  /\ mountTo [OtherNode 0] (sample false true) = [OtherNode 0].
Proof.
  split; [reflexivity|].
  destruct (@not_ready_drops_everything nat
              [Call_startFind "foo"; Call_find "foo" true; Call_stopFind None]
              [OtherNode 0] "ping" None (sample false true) eq_refl)
    as (_ & _ & Hmount & _).
  split; [reflexivity | exact Hmount].
Defined.

(** X4: on a ready webview every [stopFind] call of a history reaches the host,
    one stop request per call and in the order of the calls, each with the
    [keepSelection] it was called with; nothing else sends a stop request. *)
Theorem run_stop_requests (es : list Event) (o : ElectronIframeWebview) :
  element o = true ->
  filter isStop (dispatched (effects (run es) o)) = stopRequests o es.
Proof.
  revert o. induction es as [|e es IH]; intros o He.
  - reflexivity.
  - rewrite effects_run_cons, dispatched_app, filter_app, step_stops, He.
    rewrite IH by (rewrite (proj2 (step_keeps_listener e o)); exact He).
    rewrite stopRequests_step.
    unfold stopRequests. simpl. rewrite app_nil_r. reflexivity.
Qed.

Lemma run_stop_requests_witness :
  element (sample true false) = true
  /\ filter isStop
       (dispatched
          (effects (run [Call_stopFind (Some true); Msg_didFocus; Call_stopFind None])
                   (sample true false)))
     = [stopFindInFrame {| windowId := 7 |} "webview-1" {| keepSelection := Some true |};
        stopFindInFrame {| windowId := 7 |} "webview-1" {| keepSelection := None |}].
Proof.
  split; [reflexivity|].
  exact (@run_stop_requests
           [Call_stopFind (Some true); Msg_didFocus; Call_stopFind None]
           (sample true false) eq_refl).
Defined.

(** X5: on a ready webview, when every query of a history is non-empty, every
    [startFind] and [find] call reaches the host: one find request per call,
    in the order of the calls and with the query as it was passed; nothing
    else sends a find request. *)
Theorem run_find_requests (es : list Event) (o : ElectronIframeWebview) :
  element o = true ->
  queriesNonEmpty es = true ->
  filter isFind (dispatched (effects (run es) o)) = findRequests o es.
Proof.
  revert o. induction es as [|e es IH]; intros o He Hq.
  - reflexivity.
  - simpl in Hq. apply andb_true_iff in Hq. destruct Hq as [Hq1 Hq2].
    rewrite effects_run_cons, dispatched_app, filter_app.
    rewrite step_finds; [|exact He | simpl; rewrite Hq1; reflexivity].
    rewrite IH;
      [|rewrite (proj2 (step_keeps_listener e o)); exact He | exact Hq2].
    rewrite findRequests_step.
    unfold findRequests. simpl. rewrite app_nil_r. reflexivity.
Qed.

Lemma run_find_requests_witness :
  element (sample true false) = true
  /\ queriesNonEmpty [Call_find "a" true; Call_stopFind None; Call_startFind "b"] = true
  /\ filter isFind
       (dispatched
          (effects (run [Call_find "a" true; Call_stopFind None; Call_startFind "b"])
                   (sample true false)))
     = [findInFrame {| windowId := 7 |} "webview-1" "a" emptyOptions;
        findInFrame {| windowId := 7 |} "webview-1" "b" emptyOptions].
Proof.
  split; [reflexivity|]. split; [reflexivity|].
  exact (@run_find_requests
           [Call_find "a" true; Call_stopFind None; Call_startFind "b"]
           (sample true false) eq_refl eq_refl).
Defined.

(* ------------------------------------------------------------------ *)
(** ** The started flag over a history *)

Lemma step_stays_started (e : Event) (o : ElectronIframeWebview) :
  isStopCall e = false ->
  _findStarted o = true ->
  _findStarted (after (step e) o) = true.
Proof.
  intros Hns Hs. step_cases e o; simpl in Hns, Hs; try discriminate;
    reflexivity.
Qed.

Lemma run_stays_started (es : list Event) (o : ElectronIframeWebview) :
  forallb (fun e => negb (isStopCall e)) es = true ->
  _findStarted o = true ->
  _findStarted (after (run es) o) = true.
Proof.
  revert o. induction es as [|e es IH]; intros o Hns Hs.
  - exact Hs.
  - simpl in Hns. apply andb_true_iff in Hns. destruct Hns as [H1 H2].
    rewrite after_run_cons. apply IH; [exact H2|].
    apply step_stays_started; [|exact Hs].
    destruct (isStopCall e); [discriminate | reflexivity].
Qed.

Lemma step_stays_stopped (e : Event) (o : ElectronIframeWebview) :
  isStartCall e = false ->
  _findStarted o = false ->
  _findStarted (after (step e) o) = false.
Proof.
  intros Hns Hs. step_cases e o; simpl in Hns, Hs; try discriminate;
    reflexivity.
Qed.

Lemma run_stays_stopped (es : list Event) (o : ElectronIframeWebview) :
  forallb (fun e => negb (isStartCall e)) es = true ->
  _findStarted o = false ->
  _findStarted (after (run es) o) = false.
Proof.
  revert o. induction es as [|e es IH]; intros o Hns Hs.
  - exact Hs.
  - simpl in Hns. apply andb_true_iff in Hns. destruct Hns as [H1 H2].
    rewrite after_run_cons. apply IH; [exact H2|].
    apply step_stays_stopped; [|exact Hs].
    destruct (isStartCall e); [discriminate | reflexivity].
Qed.

(** X6: on a ready webview, whatever happened before, a [startFind] or a [find]
    with a non-empty query leaves the session started, and it stays started
    through every later event until a [stopFind]. *)
Theorem session_started_until_stop (es es' : list Event) (value : string)
        (previous : bool) (o : ElectronIframeWebview) :
  element o = true ->
  value <> "" ->
  forallb (fun e => negb (isStopCall e)) es' = true ->
  _findStarted (after (run (es ++ Call_startFind value :: es')) o) = true
  /\ _findStarted (after (run (es ++ Call_find value previous :: es')) o) = true.
Proof.
  intros He Hne Hns.
  assert (He' : element (after (run es) o) = true)
    by (rewrite (proj2 (run_keeps_listener es o)); exact He).
  split; rewrite after_run_app, after_run_cons;
    apply run_stays_started; try exact Hns; simpl step.
  - rewrite startFind_after, He', (falsy_nonempty Hne). reflexivity.
  - rewrite find_after, startFind_after, He', (falsy_nonempty Hne). simpl.
    destruct (_findStarted (after (run es) o)) eqn:Hs; simpl;
      [exact Hs | reflexivity].
Qed.

Lemma session_started_until_stop_witness :
  element (sample true false) = true
  /\ "foo" <> ""
  /\ _findStarted
       (after (run ([Call_stopFind None]
                    ++ Call_find "foo" true :: [Dom_foundInPage 0; Msg_didBlur]))
              (sample true false)) = true.
Proof.
  assert (Hne : "foo" <> "") by discriminate.
  split; [reflexivity|]. split; [exact Hne|].
  exact (proj2 (@session_started_until_stop
                  [Call_stopFind None] [Dom_foundInPage 0; Msg_didBlur]
                  "foo" true (sample true false) eq_refl Hne eq_refl)).
Defined.

(** X7: on a ready webview, whatever happened before, [stopFind] leaves the
    session not started, and it stays so through every later event until a
    [startFind] or a [find]. *)
Theorem session_stopped_until_start (es es' : list Event) (keep : option bool)
        (o : ElectronIframeWebview) :
  element o = true ->
  forallb (fun e => negb (isStartCall e)) es' = true ->
  _findStarted (after (run (es ++ Call_stopFind keep :: es')) o) = false.
Proof.
  intros He Hns.
  rewrite after_run_app, after_run_cons.
  apply run_stays_stopped; [exact Hns|]. simpl step.
  rewrite stopFind_after, (proj2 (run_keeps_listener es o)), He. reflexivity.
Qed.

Lemma session_stopped_until_start_witness :
  element (sample true true) = true
  /\ _findStarted
       (after (run ([Call_find "foo" false]
                    ++ Call_stopFind None :: [Dom_foundInPage 3; Msg_didFocus]))
              (sample true true)) = false.
Proof.
  split; [reflexivity|].
  exact (@session_stopped_until_start
           [Call_find "foo" false] [Dom_foundInPage 3; Msg_didFocus]
           None (sample true true) eq_refl eq_refl).
Defined.

(** X8: on a webview with no session started, [startFind] followed by [stopFind]
    leaves the object exactly as it was, whatever the query, the
    [keepSelection] and the readiness of the element. *)
Theorem startFind_stopFind_restores (value : string) (keep : option bool)
        (o : ElectronIframeWebview) :
  _findStarted o = false ->
  after (startFind value ;; stopFind keep) o = o.
Proof.
  intros Hs.
  rewrite after_seq by (apply startFind_framed || apply stopFind_framed).
  rewrite stopFind_after, startFind_after.
  destruct o as [? ? [] ? ? ? ?]; simpl in Hs; subst;
    destruct value; reflexivity.
Qed.

Lemma startFind_stopFind_restores_witness :
  _findStarted (sample true false) = false
  /\ after (startFind "foo" ;; stopFind (Some true)) (sample true false)
     = sample true false.
Proof.
  split; [reflexivity|].
  exact (@startFind_stopFind_restores "foo" (Some true) (sample true false) eq_refl).
Defined.

(* ------------------------------------------------------------------ *)
(** ** The content endpoint *)

Lemma append_inj_l (p a b : string) : (p ++ a)%string = (p ++ b)%string -> a = b.
Proof.
  induction p as [|c p IH]; simpl; intros H.
  - exact H.
  - injection H as H. apply IH, H.
Qed.

Lemma substring_all (s : string) : substring 0 (String.length s) s = s.
Proof. induction s as [|c s IH]; simpl; [|rewrite IH]; reflexivity. Qed.

Lemma substring_skip (p s : string) :
  substring (String.length p) (String.length s) (p ++ s)%string = s.
Proof.
  induction p as [|c p IH]; simpl.
  - apply substring_all.
  - exact IH.
Qed.

Lemma length_append (p s : string) :
  String.length (p ++ s)%string = String.length p + String.length s.
Proof. induction p as [|c p IH]; simpl; [|rewrite IH]; reflexivity. Qed.

(** X9: the endpoint of a webview is its id behind the scheme and ["://"]: the
    id is read back from it by dropping that prefix, so, under one scheme,
    two webviews have the same endpoint exactly when they have the same id;
    no history changes the endpoint. *)
Theorem webviewContentEndpoint_identifies (vscodeWebview : string)
        (es : list Event) (o o' : ElectronIframeWebview) :
  substring (String.length vscodeWebview + 3) (String.length (id o))
            (webviewContentEndpoint vscodeWebview o) = id o
  /\ (webviewContentEndpoint vscodeWebview o = webviewContentEndpoint vscodeWebview o'
      <-> id o = id o')
  /\ webviewContentEndpoint vscodeWebview (after (run es) o)
     = webviewContentEndpoint vscodeWebview o.
Proof.
  unfold webviewContentEndpoint. split; [|split].
  - replace (String.length vscodeWebview + 3)
      with (String.length (vscodeWebview ++ "://")%string)
      by (rewrite length_append; reflexivity).
    replace (vscodeWebview ++ "://" ++ id o)%string
      with ((vscodeWebview ++ "://") ++ id o)%string.
    + apply substring_skip.
    + clear. induction vscodeWebview as [|c p IH]; simpl;
        [|rewrite IH]; reflexivity.
  - split.
    + intros H. apply append_inj_l in H.
      apply (append_inj_l "://") in H. exact H.
    + intros ->. reflexivity.
  - rewrite (proj1 (run_keeps_identity es o)). reflexivity.
Qed.

(* ------------------------------------------------------------------ *)
(** ** Mounting *)

Lemma filter_idem (A : Type) (f : A -> bool) (l : list A) :
  filter f (filter f l) = filter f l.
Proof.
  induction l as [|x l IH]; simpl; [reflexivity|].
  destruct (f x) eqn:Hx; simpl; rewrite ?Hx, IH; reflexivity.
Qed.

Lemma filter_both (A : Type) (f g : A -> bool) (l : list A) :
  filter f (filter g l) = filter (fun x => f x && g x) l.
Proof.
  induction l as [|x l IH]; simpl; [reflexivity|].
  destruct (g x); simpl; rewrite ?andb_true_r, ?andb_false_r;
    [destruct (f x)|]; rewrite IH; reflexivity.
Qed.

Lemma mountTo_children (parent : list Node) (o : ElectronIframeWebview) :
  mountTo parent o
  = if element o
    then filter (stays (_webviewFindWidget o)) parent
         ++ (if _webviewFindWidget o then [FindWidgetDomNode] else [])
         ++ [IframeElement]
    else parent.
Proof.
  unfold mountTo, appendChild.
  destruct (element o); simpl; [|reflexivity].
  destruct (_webviewFindWidget o); simpl.
  - rewrite filter_app, filter_both. simpl.
    rewrite <- app_assoc. reflexivity.
  - f_equal. apply filter_ext. intros c. unfold stays.
    rewrite andb_true_r. reflexivity.
Qed.

Lemma filter_stays_mounted (widget : bool) :
  filter (stays widget)
         ((if widget then [FindWidgetDomNode] else []) ++ [IframeElement]) = [].
Proof. destruct widget; reflexivity. Qed.

(** X10: on a ready webview [mountTo] leaves the iframe element as the last child
    of the parent, directly behind the find widget's node when the webview
    has one; the other children stay, in their order.  Without the element
    the parent is left as it is. *)
Theorem mountTo_layout (parent : list Node) (o : ElectronIframeWebview) :
  mountTo parent o
  = if element o
    then filter (stays (_webviewFindWidget o)) parent
         ++ (if _webviewFindWidget o then [FindWidgetDomNode] else [])
         ++ [IframeElement]
    else parent.
Proof. exact (mountTo_children parent o). Qed.

(** X11: mounting twice to the same parent is mounting once: the second [mountTo]
    moves the widget node and the element to the places they already have. *)
Theorem mountTo_idempotent (parent : list Node) (o : ElectronIframeWebview) :
  mountTo (mountTo parent o) o = mountTo parent o.
Proof.
  rewrite !mountTo_children.
  destruct (element o); [|reflexivity].
  rewrite filter_app, filter_idem, filter_stays_mounted, app_nil_r.
  reflexivity.
Qed.

(* ------------------------------------------------------------------ *)
(** ** The find widget *)

(** X12: whether the webview has a find widget is settled by [enableFindWidget] at
    construction and by nothing after: following any history, [showFind],
    [hideFind], [runFindAction] and [styledFindWidget] make their one call on
    the widget when the option was set, [runFindAction] handing [previous]
    on as it is, and make no call when it was not; [mountTo] on an empty
    parent mounts the widget node before the element in the first case and
    the element alone in the second. *)
Theorem find_widget_follows_option (Theme : Type) (theme : Theme)
        (id0 : string) (options : WebviewOptions) (wid : Z)
        (es : list Event) (previous : bool) :
  let o := after (run es) (constructor id0 options wid) in
  let on (c : WidgetCall Theme) := if enableFindWidget options then [c] else [] in
  showFind Theme o = on widget_reveal
  /\ hideFind Theme o = on widget_hide
  /\ runFindAction Theme previous o = on (widget_find previous)
  /\ styledFindWidget theme o = on (widget_updateTheme theme)
  /\ mountTo [] o
     = (if enableFindWidget options then [FindWidgetDomNode] else [])
       ++ [IframeElement].
Proof.
  intros o on.
  destruct (run_keeps_identity es (constructor id0 options wid))
    as (_ & _ & He & Hw & _).
  fold o in He, Hw. simpl in He, Hw.
  unfold showFind, hideFind, runFindAction, styledFindWidget, onFindWidget, on.
  rewrite mountTo_children, He, Hw.
  repeat split; reflexivity.
Qed.
